(** * copilot_image_ai: template store, prompt formatting and enhancement pipeline

    A shallow embedding of the Python sources

      - [src/copilot_image_ai/templates/template_manager.py]
      - [src/copilot_image_ai/enhancers/image_enhancer.py]
      - [src/copilot_image_ai/generators/image_generator.py]
      - [src/copilot_image_ai/config.py] (the entries the enhancer reads)

    Python dictionaries are finite maps ([gmap]), exceptions are the error
    side of a small result monad, Python floats are IEEE-754 binary64 values
    ([spec_float] at precision 53), and the imaging libraries (Pillow,
    OpenCV, NumPy) and the diffusion backend are an interface the development
    is parametric in. *)

From Stdlib Require Import ZArith String Ascii.
From Stdlib Require Import Floats.SpecFloat Sorting.Sorted.
From stdpp Require Import gmap strings list fin_maps.

#[local] Set Warnings "-register-all".
#[local] Open Scope string_scope.
#[local] Open Scope Z_scope.

(** ** Python values, exceptions, truthiness *)

Module Py.

(** The exceptions the modelled code can let escape.  [Unmodelled] is not a
    Python exception: it marks a run that leaves the typed fragment embedded
    here (a value that the annotated type of its slot cannot hold, or a
    [str.format] feature beyond plain named fields in ASCII). *)
Inductive exn : Type :=
  | KeyError (key : string)
  | IndexError
  | TypeError
  | OverflowError
  | ValueError (msg : string)
  (* ValueError(f"Missing required template variable: {e}"), e = KeyError(key) *)
  | MissingTemplateVariable (key : string)
  (* ValueError(f"Template '{template_name}' not found") *)
  | TemplateNotFound (template_name : string)
  (* an exception raised inside Pillow / OpenCV / the file system *)
  | LibraryError (what : string)
  | Unmodelled.

Inductive result (A : Type) : Type :=
  | Ok (a : A)
  | Raise (e : exn).
Arguments Ok {A} a.
Arguments Raise {A} e.

#[export] Instance result_ret : MRet result := @Ok.
#[export] Instance result_bind : MBind result :=
  λ A B f m, match m with Ok a => f a | Raise e => Raise e end.

(** binary64 *)
Abbreviation float := spec_float.
Definition fmul : float → float → float := SFmul 53 1024.
Definition fadd : float → float → float := SFadd 53 1024.
Definition fzero : float := S754_zero false.

(** [float(n)] for an [int] operand of a float operation (round to nearest
    even; the integers used here are exact). *)
Definition float_of_int (n : Z) : float := binary_normalize 53 1024 n 0 false.

(** The literals [0.3], [0.5], [1.0], [1.2], [1.3], [7.0], [7.5], [8.0]. *)
Definition f0_3 : float := S754_finite false 5404319552844595 (-54).
Definition f0_5 : float := S754_finite false 4503599627370496 (-53).
Definition f1_0 : float := S754_finite false 4503599627370496 (-52).
Definition f1_2 : float := S754_finite false 5404319552844595 (-52).
Definition f1_3 : float := S754_finite false 5854679515581645 (-52).
Definition f7_0 : float := S754_finite false 7881299347898368 (-50).
Definition f7_5 : float := S754_finite false 8444249301319680 (-50).
Definition f8_0 : float := S754_finite false 4503599627370496 (-49).

(** [int(x)] on a float: truncation toward zero; [ValueError] on NaN,
    [OverflowError] on an infinity. *)
Definition int_of_float (x : float) : result Z :=
  match x with
  | S754_zero _ => Ok 0
  | S754_nan => Raise (ValueError "cannot convert float NaN to integer")
  | S754_infinity _ => Raise OverflowError
  | S754_finite s m e =>
      let mag := if (0 <=? e) then Z.pos m * 2 ^ e else Z.pos m / 2 ^ (- e) in
      Ok (if s then - mag else mag)
  end.

(** [bool(x)] on a float: [x != 0.0] (so NaN is true, [-0.0] false). *)
Definition float_truthy (x : float) : bool := negb (SFeqb x fzero).

(** The values a JSON document or a [Dict[str, Any]] holds. *)
Inductive pyval : Type :=
  | PNone
  | PBool (b : bool)
  | PInt (z : Z)
  | PFloat (f : float)
  | PStr (s : string)
  | PList (l : list pyval)
  | PDict (d : gmap string pyval).

Definition str_truthy (s : string) : bool :=
  match s with EmptyString => false | String _ _ => true end.

Definition list_truthy {A} (l : list A) : bool :=
  match l with [] => false | _ :: _ => true end.

Definition dict_truthy {A} (d : gmap string A) : bool :=
  negb (Nat.eqb (size d) 0).

(** [bool(v)] *)
Definition truthy (v : pyval) : bool :=
  match v with
  | PNone => false
  | PBool b => b
  | PInt z => negb (z =? 0)
  | PFloat f => float_truthy f
  | PStr s => str_truthy s
  | PList l => list_truthy l
  | PDict d => dict_truthy d
  end.

(** [x or y] where [x] is an optional argument of a known type: [None] and
    the falsy values of the type give [y]. *)
Definition py_or {A} (is_true : A → bool) (x : option A) (y : option A) : option A :=
  match x with
  | Some a => if is_true a then x else y
  | None => y
  end.

(** [x or d] with a default that is not [None]. *)
Definition py_or_default {A} (is_true : A → bool) (x : option A) (d : A) : A :=
  match x with
  | Some a => if is_true a then a else d
  | None => d
  end.

End Py.

(** ** [str.format] with keyword arguments only

    [self.prompt.format] applied to [**kwargs] is the interpreter's
    format-string scanner called with an empty positional tuple (CPython's
    [MarkupIterator_next] and [parse_field]).  The scanner is embedded as the
    state machine it is: literal text is copied, a doubled brace is one
    literal brace, a single closing brace is an error, and a replacement
    field runs up to its closing brace.  A field whose name is empty or a
    decimal number indexes the (empty) positional tuple; any other name is
    looked up among the keyword arguments.  Fields with an attribute, an
    index, a conversion or a format specification (the characters [.], [[],
    [!], [:]) are outside the embedded fragment. *)

Module Format.
Import Py.

Inductive scan : Type :=
  | Literal                 (* copying literal text *)
  | AfterOpen               (* a single opening brace was just read *)
  | AfterClose              (* a single closing brace was just read *)
  | FieldName (acc : string). (* inside a replacement field *)

Definition snoc (s : string) (c : ascii) : string := s ++ String c "".

Definition is_digit (c : ascii) : bool :=
  let n := nat_of_ascii c in (Nat.leb 48 n && Nat.leb n 57)%bool.

(** Decimal digits of ASCII; [resolve_field] asks this of names that are
    ASCII throughout. *)
Fixpoint all_digits (s : string) : bool :=
  match s with
  | "" => true
  | String c s' => (is_digit c && all_digits s')%bool
  end.

(** A string is the UTF-8 bytes of the Python text.  A byte below 128 is an
    ASCII character; the others belong to characters outside ASCII. *)
Definition is_ascii (c : ascii) : bool := Nat.ltb (nat_of_ascii c) 128.

Fixpoint ascii_only (s : string) : bool :=
  match s with
  | "" => true
  | String c s' => (is_ascii c && ascii_only s')%bool
  end.

(** The object a field name denotes when the positional tuple is empty.  A
    name is a number when all its characters are decimal digits, of any
    script: for a name with characters outside ASCII that test is not
    embedded, and the run is outside the fragment. *)
Definition resolve_field (kwargs : gmap string string) (field : string) : result string :=
  match field with
  | "" => Raise IndexError
  | _ =>
      if negb (ascii_only field) then Raise Unmodelled
      else if all_digits field then
        (if Nat.leb (String.length field) 18 then Raise IndexError else Raise Unmodelled)
      else
        match kwargs !! field with
        | Some v => Ok v
        | None => Raise (KeyError field)
        end
  end.

Definition ch_open : ascii := "{"%char.
Definition ch_close : ascii := "}"%char.

(** Characters that start an attribute, an index, a conversion or a format
    specification inside a field. *)
Definition is_field_operator (c : ascii) : bool :=
  (Ascii.eqb c "." || Ascii.eqb c "[" || Ascii.eqb c "!" || Ascii.eqb c ":")%bool%char.

Fixpoint format_scan (kwargs : gmap string string) (st : scan) (out : string)
    (s : string) : result string :=
  match s with
  | "" =>
      match st with
      | Literal => Ok out
      | AfterOpen => Raise (ValueError "Single '{' encountered in format string")
      | AfterClose => Raise (ValueError "Single '}' encountered in format string")
      | FieldName _ => Raise (ValueError "expected '}' before end of string")
      end
  | String c s' =>
      let in_field (acc : string) : result string :=
        if Ascii.eqb c ch_close then
          match resolve_field kwargs acc with
          | Ok v => format_scan kwargs Literal (out ++ v) s'
          | Raise e => Raise e
          end
        else if Ascii.eqb c ch_open then
          Raise (ValueError "unexpected '{' in field name")
        else if is_field_operator c then Raise Unmodelled
        else format_scan kwargs (FieldName (snoc acc c)) out s' in
      match st with
      | Literal =>
          if Ascii.eqb c ch_open then format_scan kwargs AfterOpen out s'
          else if Ascii.eqb c ch_close then format_scan kwargs AfterClose out s'
          else format_scan kwargs Literal (snoc out c) s'
      | AfterOpen =>
          if Ascii.eqb c ch_open then format_scan kwargs Literal (snoc out ch_open) s'
          else in_field ""
      | AfterClose =>
          if Ascii.eqb c ch_close then format_scan kwargs Literal (snoc out ch_close) s'
          else Raise (ValueError "Single '}' encountered in format string")
      | FieldName acc => in_field acc
      end
  end.

(** [fmt.format] applied to [**kwargs] *)
Definition str_format (fmt : string) (kwargs : gmap string string) : result string :=
  format_scan kwargs Literal "" fmt.

(** The names of the replacement fields of a format string, in order: the
    placeholders of a prompt.  Same scanner, collecting instead of
    substituting; [None] when the string is not a format string of the
    embedded fragment. *)
Fixpoint fields_scan (st : scan) (s : string) : option (list string) :=
  match s with
  | "" => match st with Literal => Some [] | _ => None end
  | String c s' =>
      let in_field (acc : string) : option (list string) :=
        if Ascii.eqb c ch_close then cons acc <$> fields_scan Literal s'
        else if Ascii.eqb c ch_open then None
        else if is_field_operator c then None
        else fields_scan (FieldName (snoc acc c)) s' in
      match st with
      | Literal =>
          if Ascii.eqb c ch_open then fields_scan AfterOpen s'
          else if Ascii.eqb c ch_close then fields_scan AfterClose s'
          else fields_scan Literal s'
      | AfterOpen => if Ascii.eqb c ch_open then fields_scan Literal s' else in_field ""
      | AfterClose => if Ascii.eqb c ch_close then fields_scan Literal s' else None
      | FieldName acc => in_field acc
      end
  end.

Definition placeholders (s : string) : list string :=
  default [] (fields_scan Literal s).

End Format.

(** ** Prompts as the specification describes them

    "A string containing named placeholders, e.g. [{x}]": literal text
    interleaved with placeholders.  [render] writes such a description as
    the prompt string; [substitute] is the result the specification gives
    [format_prompt].  A plain key is a non-empty ASCII name that is not a
    number and has none of the characters the format syntax reserves; plain
    text has no brace. *)

Module PromptShape.
Import Py Format.

Inductive segment : Type :=
  | Text (s : string)
  | Hole (key : string).

Definition render_segment (seg : segment) : string :=
  match seg with
  | Text s => s
  | Hole key => String ch_open (key ++ String ch_close "")
  end.

Fixpoint render (segs : list segment) : string :=
  match segs with
  | [] => ""
  | seg :: segs' => render_segment seg ++ render segs'
  end.

Fixpoint holes (segs : list segment) : list string :=
  match segs with
  | [] => []
  | Text _ :: segs' => holes segs'
  | Hole key :: segs' => key :: holes segs'
  end.

Fixpoint substitute (kwargs : gmap string string) (segs : list segment) : string :=
  match segs with
  | [] => ""
  | Text s :: segs' => s ++ substitute kwargs segs'
  | Hole key :: segs' => default "" (kwargs !! key) ++ substitute kwargs segs'
  end.

Definition is_brace (c : ascii) : bool := (Ascii.eqb c ch_open || Ascii.eqb c ch_close)%bool.

Fixpoint plain_text (s : string) : bool :=
  match s with
  | "" => true
  | String c s' => (negb (is_brace c) && plain_text s')%bool
  end.

Fixpoint name_chars (s : string) : bool :=
  match s with
  | "" => true
  | String c s' => (negb (is_brace c) && negb (is_field_operator c) && name_chars s')%bool
  end.

Definition plain_key (key : string) : bool :=
  (str_truthy key && ascii_only key && negb (all_digits key) && name_chars key)%bool.

Definition plain_segment (seg : segment) : bool :=
  match seg with
  | Text s => plain_text s
  | Hole key => plain_key key
  end.

Definition well_formed (segs : list segment) : bool := forallb plain_segment segs.

(** Substitution from left to right, stopping at the first key without an
    entry. *)
Fixpoint fill (kwargs : gmap string string) (out : string) (segs : list segment)
    : result string :=
  match segs with
  | [] => Ok out
  | Text s :: segs' => fill kwargs (out ++ s) segs'
  | Hole key :: segs' =>
      match kwargs !! key with
      | Some v => fill kwargs (out ++ v) segs'
      | None => Raise (KeyError key)
      end
  end.

End PromptShape.

(** ** templates/template_manager.py *)

Module Templates.
Import Py Format.

(** [class Template]: the fields with the types of the constructor's
    annotations, after the constructor has replaced missing arguments. *)
Record Template : Type := mkTemplate {
  name : string;
  description : string;
  prompt : string;
  negative_prompt : string;
  style : string;
  parameters : gmap string pyval;
  tags : list string;
}.

(** [Template.__init__] *)
Definition Template_init (name description prompt : string)
    (negative_prompt style : option string)
    (parameters : option (gmap string pyval)) (tags : option (list string)) : Template :=
  {| name := name;
     description := description;
     prompt := prompt;
     negative_prompt := py_or_default str_truthy negative_prompt "";
     style := py_or_default str_truthy style "general";
     parameters := py_or_default dict_truthy parameters ∅;
     tags := py_or_default list_truthy tags [] |}.

(** [Template.format_prompt], called as [t.format_prompt( **kwargs)] with a
    mapping: an entry named [self] clashes with the method's first
    parameter, and the call is a [TypeError] before the body runs. *)
Definition format_prompt (self : Template) (kwargs : gmap string string) : result string :=
  if decide (is_Some (kwargs !! "self")) then Raise TypeError
  else
    match str_format (prompt self) kwargs with
    | Raise (KeyError key) => Raise (MissingTemplateVariable key)
    | r => r
    end.

(** [Template.to_dict] *)
Definition to_dict (self : Template) : gmap string pyval :=
  <["name" := PStr (name self)]>
  (<["description" := PStr (description self)]>
  (<["prompt" := PStr (prompt self)]>
  (<["negative_prompt" := PStr (negative_prompt self)]>
  (<["style" := PStr (style self)]>
  (<["parameters" := PDict (parameters self)]>
  (<["tags" := PList (PStr <$> tags self)]> ∅)))))).

(** [data[key]] and [data.get(key)] *)
Definition getitem (data : gmap string pyval) (key : string) : result pyval :=
  match data !! key with
  | Some v => Ok v
  | None => Raise (KeyError key)
  end.

Definition dict_get (data : gmap string pyval) (key : string) : pyval :=
  default PNone (data !! key).

(** Reading a dynamically typed value at the type a constructor argument is
    annotated with. *)
Definition as_str (v : pyval) : option string :=
  match v with PStr s => Some s | _ => None end.

Definition as_dict (v : pyval) : option (gmap string pyval) :=
  match v with PDict d => Some d | _ => None end.

Fixpoint all_str (l : list pyval) : option (list string) :=
  match l with
  | [] => Some []
  | v :: l' =>
      match as_str v, all_str l' with
      | Some s, Some ss => Some (s :: ss)
      | _, _ => None
      end
  end.

Definition as_str_list (v : pyval) : option (list string) :=
  match v with PList l => all_str l | _ => None end.

(** A required [str] argument. *)
Definition required_arg (v : pyval) : result string :=
  match as_str v with
  | Some s => Ok s
  | None => Raise Unmodelled
  end.

(** An [Optional[...]] argument that the constructor guards with [or]: a
    falsy value of any type acts as [None] there. *)
Definition optional_arg {A} (read : pyval → option A) (v : pyval) : result (option A) :=
  match read v with
  | Some a => Ok (Some a)
  | None => if truthy v then Raise Unmodelled else Ok None
  end.

(** [Template.from_dict]: the three subscriptions are evaluated first, in
    order, then the four [get]s, then the constructor runs. *)
Definition from_dict (data : gmap string pyval) : result Template :=
  n ← getitem data "name";
  d ← getitem data "description";
  p ← getitem data "prompt";
  let np := dict_get data "negative_prompt" in
  let st := dict_get data "style" in
  let ps := dict_get data "parameters" in
  let tg := dict_get data "tags" in
  n ← required_arg n;
  d ← required_arg d;
  p ← required_arg p;
  np ← optional_arg as_str np;
  st ← optional_arg as_str st;
  ps ← optional_arg as_dict ps;
  tg ← optional_arg as_str_list tg;
  Ok (Template_init n d p np st ps tg).

(** [os.path.join(a, b)] (posixpath) *)
Definition starts_with_sep (s : string) : bool :=
  match s with String c _ => Ascii.eqb c "/" | "" => false end.

Fixpoint ends_with_sep (s : string) : bool :=
  match s with
  | "" => false
  | String c "" => Ascii.eqb c "/"
  | String _ s' => ends_with_sep s'
  end.

Definition os_path_join (a b : string) : string :=
  if starts_with_sep b then b
  else if (negb (str_truthy a) || ends_with_sep a)%bool then a ++ b
  else a ++ "/" ++ b.

(** [class TemplateManager]: the object's two attributes. *)
Record TemplateManager : Type := mkManager {
  template_dir : string;
  templates : gmap string Template;
}.

(** What a path of the file system holds: a regular file with the JSON
    document in it, which the process may unlink or may not (a read-only
    directory, say), or a directory. *)
Inductive node : Type :=
  | File (document : pyval) (unlinkable : bool)
  | Directory.

Abbreviation files := (gmap string node).

(** [os.remove(path)]: the [OSError]s it raises are [LibraryError]s here. *)
Definition os_remove (path : string) (fs : files) : result files :=
  match fs !! path with
  | Some (File _ true) => Ok (delete path fs)
  | Some (File _ false) => Raise (LibraryError "PermissionError")
  | Some Directory => Raise (LibraryError "IsADirectoryError")
  | None => Raise (LibraryError "FileNotFoundError")
  end.

Definition default_templates : list Template :=
  [ Template_init "product_photography"
      "Professional product photography template"
      "professional product photography of {product}, studio lighting, white background, high detail, commercial quality, 8k"
      (Some "blurry, low quality, amateur, distorted, dark")
      (Some "realistic")
      (Some {[ "guidance_scale" := PFloat f8_0 ]})
      (Some ["product"; "commercial"; "photography"]);
    Template_init "landscape_art"
      "Beautiful landscape artwork template"
      "beautiful {landscape_type} landscape, {time_of_day}, dramatic lighting, detailed, artstation, concept art, smooth, sharp focus"
      (Some "blurry, ugly, distorted, low quality")
      (Some "artistic")
      (Some {[ "guidance_scale" := PFloat f7_5 ]})
      (Some ["landscape"; "nature"; "art"]);
    Template_init "portrait_professional"
      "Professional portrait photography template"
      "professional portrait photograph of {subject}, studio lighting, bokeh background, detailed face, high quality, 50mm lens, professional photography"
      (Some "blurry, low quality, distorted, amateur, bad anatomy")
      (Some "realistic")
      (Some {[ "guidance_scale" := PFloat f7_0 ]})
      (Some ["portrait"; "professional"; "photography"]);
    Template_init "social_media_post"
      "Eye-catching social media post template"
      "modern social media post design, {theme}, vibrant colors, professional, clean layout, trending style, high engagement"
      (Some "cluttered, ugly, low quality, amateur")
      (Some "graphic_design")
      (Some {[ "guidance_scale" := PFloat f7_5 ]})
      (Some ["social_media"; "marketing"; "design"]);
    Template_init "campaign_banner"
      "Marketing campaign banner template"
      "marketing campaign banner for {campaign_type}, {brand_style}, eye-catching, professional design, high impact, commercial quality"
      (Some "cluttered, low quality, amateur, generic")
      (Some "marketing")
      (Some {[ "guidance_scale" := PFloat f8_0 ]})
      (Some ["campaign"; "marketing"; "banner"]);
    Template_init "abstract_art"
      "Abstract artistic creation template"
      "abstract art, {color_scheme}, {mood}, flowing shapes, creative, unique, artstation quality"
      (Some "realistic, photographic, boring, low quality")
      (Some "abstract")
      (Some {[ "guidance_scale" := PFloat f7_0 ]})
      (Some ["abstract"; "art"; "creative"]) ].

(** [TemplateManager.add_template]: [self.templates[template.name] = template] *)
Definition add_template (template : Template) (self : TemplateManager) : TemplateManager :=
  {| template_dir := template_dir self;
     templates := <[name template := template]> (templates self) |}.

(** [TemplateManager._initialize_default_templates] *)
Definition _initialize_default_templates (self : TemplateManager) : TemplateManager :=
  foldl (λ m template, add_template template m) self default_templates.

(** [TemplateManager.get_template]: [None] when the name is absent. *)
Definition get_template (name : string) (self : TemplateManager) : option Template :=
  templates self !! name.

(** [TemplateManager.delete_template]: what it returns or raises, and the
    manager and the files it leaves.  The entry is deleted from
    [self.templates] before the file is looked at, so it is gone also when
    [os.remove] raises. *)
Definition delete_template (name : string) (self : TemplateManager) (fs : files)
    : result bool * TemplateManager * files :=
  if decide (is_Some (templates self !! name)) then
    let self' := {| template_dir := template_dir self;
                    templates := delete name (templates self) |} in
    let filepath := os_path_join (template_dir self) (name ++ ".json") in
    if decide (is_Some (fs !! filepath)) then
      match os_remove filepath fs with
      | Ok fs' => (Ok true, self', fs')
      | Raise e => (Raise e, self', fs)
      end
    else (Ok true, self', fs)
  else (Ok false, self, fs).

End Templates.

(** ** config.py, as the enhancer reads it

    [Config.get("enhancement.upscale_factor")] and its siblings: one entry per
    dotted key the enhancer asks for, [None] when the key is missing or null
    in the loaded configuration. *)

Module Config.
Import Py.

Record Config : Type := mkConfig {
  enhancement_upscale_factor : option Z;
  enhancement_denoise_strength : option float;
  enhancement_sharpen_amount : option float;
  enhancement_color_enhance : option bool;
  output_quality : option Z;
}.

Definition DEFAULT_CONFIG : Config :=
  {| enhancement_upscale_factor := Some 2;
     enhancement_denoise_strength := Some f0_3;
     enhancement_sharpen_amount := Some f0_5;
     enhancement_color_enhance := Some true;
     output_quality := Some 95 |}.

End Config.

(** ** enhancers/image_enhancer.py *)

Module Enhancer.
Import Py Config.

(** What the enhancer calls in Pillow, NumPy and OpenCV.  Every call may
    raise. *)
Class Imaging : Type := {
  Image : Type;                                     (* PIL.Image.Image *)
  ndarray : Type;                                   (* numpy.ndarray *)
  width : Image → Z;
  height : Image → Z;
  Image_open : string → result Image;               (* Image.open(path) *)
  Image_fromarray : ndarray → result Image;         (* Image.fromarray(a) *)
  np_array : Image → result ndarray;                (* np.array(image) *)
  convert : Image → string → result Image;          (* image.convert(mode) *)
  resize_LANCZOS : Image → Z * Z → result Image;    (* image.resize(size, LANCZOS) *)
  (* image.filter(ImageFilter.UnsharpMask(radius, percent, threshold)) *)
  filter_UnsharpMask : Image → Z → Z → Z → result Image;
  Color_enhance : Image → float → result Image;     (* ImageEnhance.Color(image).enhance(f) *)
  Contrast_enhance : Image → float → result Image;  (* ImageEnhance.Contrast(image).enhance(f) *)
  Brightness_enhance : Image → float → result Image;
  (* cv2.fastNlMeansDenoisingColored(src, None, h, hColor, 7, 21) *)
  fastNlMeansDenoisingColored : ndarray → Z → Z → Z → Z → result ndarray;
  (* Path(path).parent.mkdir(parents=True, exist_ok=True); img.save(path, quality=q) *)
  save : Image → string → option Z → result unit;
}.

Definition DEFAULT_DENOISE_H_PARAM : Z := 30.
Definition UNSHARP_MASK_RADIUS : Z := 2.
Definition UNSHARP_MASK_PERCENT_BASE : Z := 150.
Definition UNSHARP_MASK_THRESHOLD : Z := 3.

Section ImageEnhancer.
Context `{Imaging}.

(** The [image] argument: [Union[str, Image.Image, np.ndarray]], or anything
    else. *)
Inductive image_arg : Type :=
  | FromPath (path : string)
  | FromImage (image : Image)
  | FromArray (a : ndarray)
  | FromOther.

Definition int_truthy (z : Z) : bool := negb (z =? 0).

(** [ImageEnhancer._load_image] *)
Definition _load_image (image : image_arg) : result Image :=
  match image with
  | FromPath path => img ← Image_open path; convert img "RGB"
  | FromImage image => convert image "RGB"
  | FromArray a => img ← Image_fromarray a; convert img "RGB"
  | FromOther => Raise (ValueError "Unsupported image type")
  end.

(** [ImageEnhancer._upscale] *)
Definition _upscale (image : Image) (factor : Z) : result Image :=
  let new_size := (width image * factor, height image * factor) in
  resize_LANCZOS image new_size.

(** [ImageEnhancer._denoise]; [strength] is [None] when neither the caller
    nor the configuration gave one. *)
Definition _denoise (image : Image) (strength : option float) : result Image :=
  img_array ← np_array image;
  h ← match strength with
      | Some s => int_of_float (fmul s (float_of_int DEFAULT_DENOISE_H_PARAM))
      | None => Raise TypeError
      end;
  denoised ← fastNlMeansDenoisingColored img_array h h 7 21;
  Image_fromarray denoised.

(** [ImageEnhancer._sharpen] *)
Definition _sharpen (image : Image) (amount : option float) : result Image :=
  match amount with
  | None => Raise TypeError
  | Some amount =>
      if SFleb amount fzero then Ok image
      else
        percent ← int_of_float (fmul amount (float_of_int UNSHARP_MASK_PERCENT_BASE));
        filter_UnsharpMask image UNSHARP_MASK_RADIUS percent UNSHARP_MASK_THRESHOLD
  end.

(** [ImageEnhancer._enhance_color], [_enhance_contrast], [_adjust_brightness] *)
Definition _enhance_color (image : Image) (factor : float) : result Image :=
  Color_enhance image factor.

Definition _enhance_contrast (image : Image) (factor : float) : result Image :=
  Contrast_enhance image factor.

Definition _adjust_brightness (image : Image) (adjustment : float) : result Image :=
  let factor := fadd f1_0 adjustment in
  Brightness_enhance image factor.

(** [if output_path: ... img.save(output_path, quality=quality)] *)
Definition persist (config : Config) (img : Image) (output_path : option string)
    : result unit :=
  match output_path with
  | Some path => if str_truthy path then save img path (output_quality config) else Ok tt
  | None => Ok tt
  end.

(** [ImageEnhancer.enhance].  Defaults of the keyword arguments:
    [upscale_factor=None, denoise=True, denoise_strength=None, sharpen=True,
    sharpen_amount=None, color_enhance=None, contrast_enhance=True,
    brightness_adjust=None, output_path=None].  The [print] calls are left
    out. *)
Definition enhance (config : Config) (image : image_arg)
    (upscale_factor : option Z) (denoise : bool) (denoise_strength : option float)
    (sharpen : bool) (sharpen_amount : option float) (color_enhance : option bool)
    (contrast_enhance : bool) (brightness_adjust : option float)
    (output_path : option string) : result Image :=
  img ← _load_image image;
  let upscale_factor := py_or int_truthy upscale_factor (enhancement_upscale_factor config) in
  let denoise_strength :=
    py_or float_truthy denoise_strength (enhancement_denoise_strength config) in
  let sharpen_amount :=
    py_or float_truthy sharpen_amount (enhancement_sharpen_amount config) in
  let color_enhance :=
    match color_enhance with
    | Some b => Some b
    | None => enhancement_color_enhance config
    end in
  img ← match upscale_factor with
        | Some factor =>
            if (int_truthy factor && (1 <? factor))%bool then _upscale img factor else Ok img
        | None => Ok img
        end;
  img ← (if denoise then _denoise img denoise_strength else Ok img);
  img ← match color_enhance with
        | Some true => _enhance_color img f1_3
        | _ => Ok img
        end;
  img ← (if contrast_enhance then _enhance_contrast img f1_2 else Ok img);
  img ← match brightness_adjust with
        | Some adjustment =>
            if float_truthy adjustment then _adjust_brightness img adjustment else Ok img
        | None => Ok img
        end;
  img ← (if sharpen then _sharpen img sharpen_amount else Ok img);
  _ ← persist config img output_path;
  Ok img.

(** [ImageEnhancer.auto_enhance] *)
Definition auto_enhance (config : Config) (image : image_arg) (output_path : option string)
    : result Image :=
  enhance config image None true None true None (Some true) true None output_path.

(** [ImageEnhancer.super_resolution] (default [scale=2]) *)
Definition super_resolution (config : Config) (image : image_arg) (scale : Z)
    (output_path : option string) : result Image :=
  img ← _load_image image;
  result ← _upscale img scale;
  result ← _sharpen result (Some f0_3);
  _ ← persist config result output_path;
  Ok result.

(** [ImageEnhancer.remove_noise] (default [strength=0.5]) *)
Definition remove_noise (config : Config) (image : image_arg) (strength : float)
    (output_path : option string) : result Image :=
  img ← _load_image image;
  result ← _denoise img (Some strength);
  _ ← persist config result output_path;
  Ok result.


(** What the size claims assume of the library: a resize that returns gives
    the requested size, a target with area is accepted, and the unsharp mask
    returns a raster of the size it was given. *)
Definition resize_gives_size : Prop :=
  ∀ (img out : Image) (w h : Z),
    resize_LANCZOS img (w, h) = Ok out → width out = w ∧ height out = h.

Definition resize_accepts_area : Prop :=
  ∀ (img : Image) (w h : Z), 0 < w → 0 < h → ∃ out, resize_LANCZOS img (w, h) = Ok out.

Definition unsharp_keeps_size : Prop :=
  ∀ (img : Image) (radius percent threshold : Z),
    ∃ out, filter_UnsharpMask img radius percent threshold = Ok out ∧
           width out = width img ∧ height out = height img.

End ImageEnhancer.
End Enhancer.

(** ** The pipeline as the specification words it

    "Fixed step order: upscale, denoise, color-enhance, contrast-enhance,
    brightness-adjust, sharpen", "each step's input is the prior step's
    output".  A plan is the list of enabled steps in that order; running a
    plan threads the raster through the steps from left to right.  This is
    compared with [Enhancer.enhance] below. *)

Module Pipeline.
Import Py Config Enhancer.

Inductive step : Type :=
  | Upscale (factor : Z)
  | Denoise (strength : option float)
  | ColorEnhance
  | ContrastEnhance
  | BrightnessAdjust (adjustment : float)
  | Sharpen (amount : option float).

(** Position of a step in the fixed order. *)
Definition step_rank (s : step) : nat :=
  match s with
  | Upscale _ => 0
  | Denoise _ => 1
  | ColorEnhance => 2
  | ContrastEnhance => 3
  | BrightnessAdjust _ => 4
  | Sharpen _ => 5
  end%nat.

Section Plan.
Context `{Imaging}.

Definition run_step (s : step) (img : Image) : result Image :=
  match s with
  | Upscale factor => _upscale img factor
  | Denoise strength => _denoise img strength
  | ColorEnhance => _enhance_color img f1_3
  | ContrastEnhance => _enhance_contrast img f1_2
  | BrightnessAdjust adjustment => _adjust_brightness img adjustment
  | Sharpen amount => _sharpen img amount
  end.

Fixpoint run_steps (plan : list step) (img : Image) : result Image :=
  match plan with
  | [] => Ok img
  | s :: plan' => img' ← run_step s img; run_steps plan' img'
  end.

End Plan.

(** Whether each step is enabled, and with which parameter, for given
    arguments of [enhance]: an upscale when the resolved factor exceeds 1, a
    brightness step when an adjustment other than zero is given, the others
    by their switches. *)
Definition upscale_enabled (config : Config) (upscale_factor : option Z) : option Z :=
  match py_or int_truthy upscale_factor (enhancement_upscale_factor config) with
  | Some factor => if (negb (factor =? 0) && (1 <? factor))%bool then Some factor else None
  | None => None
  end.

Definition color_enabled (config : Config) (color_enhance : option bool) : bool :=
  match color_enhance with
  | Some b => b
  | None => default false (enhancement_color_enhance config)
  end.

Definition brightness_enabled (brightness_adjust : option float) : option float :=
  match brightness_adjust with
  | Some b => if float_truthy b then Some b else None
  | None => None
  end.

Definition when {A} (b : bool) (x : A) : list A := if b then [x] else [].

Definition enabled_steps (config : Config)
    (upscale_factor : option Z) (denoise : bool) (denoise_strength : option float)
    (sharpen : bool) (sharpen_amount : option float) (color_enhance : option bool)
    (contrast_enhance : bool) (brightness_adjust : option float) : list step :=
  option_list (Upscale <$> upscale_enabled config upscale_factor)
  ++ when denoise
       (Denoise (py_or float_truthy denoise_strength (enhancement_denoise_strength config)))
  ++ when (color_enabled config color_enhance) ColorEnhance
  ++ when contrast_enhance ContrastEnhance
  ++ option_list (BrightnessAdjust <$> brightness_enabled brightness_adjust)
  ++ when sharpen
       (Sharpen (py_or float_truthy sharpen_amount (enhancement_sharpen_amount config))).

End Pipeline.

(** ** generators/image_generator.py *)

Module Generator.
Import Py Templates.

Section ImageGenerator.
(** [ImageGenerator.generate], called as
    [self.generate(prompt=prompt, output_path=output_path, **params)]: the
    diffusion backend, together with the binding of [params] to the keyword
    parameters of [generate]. *)
Context {Images : Type}.
Variable generate : string → option string → gmap string pyval → result Images.

(** [ImageGenerator.generate_from_template] *)
Definition generate_from_template (template_manager : TemplateManager)
    (template_name : string) (template_vars : option (gmap string string))
    (output_path : option string) (generation_kwargs : gmap string pyval)
    : result Images :=
  match get_template template_name template_manager with
  | None => Raise (TemplateNotFound template_name)
  | Some template =>
      let template_vars := py_or_default dict_truthy template_vars ∅ in
      prompt ← format_prompt template template_vars;
      let params := generation_kwargs ∪ parameters template in
      let params :=
        if decide (is_Some (params !! "negative_prompt")) then params
        else <["negative_prompt" := PStr (negative_prompt template)]> params in
      generate prompt output_path params
  end.

End ImageGenerator.
End Generator.

(** ** A small executable imaging backend

    Rasters are a size, a mode and row-major samples.  It stands in for
    Pillow where a statement needs a concrete library: [resize] returns a
    copy when the requested size is the current one and refuses a target
    without area, as Pillow's does; the filters are simple pointwise maps. *)

Module Bitmap.
Import Py Enhancer.

Record bitmap : Type := mkBitmap {
  bw : Z;
  bh : Z;
  bmode : string;
  samples : list Z;
}.

Definition nearest (src : bitmap) (w h : Z) : list Z :=
  y ← seqZ 0 h;
  x ← seqZ 0 w;
  [nth (Z.to_nat ((y * bh src / h) * bw src + x * bw src / w)) (samples src) 0].

Definition bitmap_resize (b : bitmap) (size : Z * Z) : result bitmap :=
  let '(w, h) := size in
  if ((w =? bw b) && (h =? bh b))%bool then Ok b
  else if ((w <? 1) || (h <? 1))%bool then
    Raise (LibraryError "height and width must be > 0")
  else Ok {| bw := w; bh := h; bmode := bmode b; samples := nearest b w h |}.

Definition pointwise (f : Z → Z) (b : bitmap) : bitmap :=
  {| bw := bw b; bh := bh b; bmode := bmode b; samples := f <$> samples b |}.

Definition scale_by (factor : float) (v : Z) : Z :=
  match int_of_float (fmul factor (S754_finite false 4503599627370496 (-44))) with
  | Ok k => v * k / 256
  | Raise _ => v
  end.

#[export] Instance bitmap_imaging : Imaging := {|
  Image := bitmap;
  ndarray := bitmap;
  width := bw;
  height := bh;
  Image_open := λ _, Raise (LibraryError "No such file or directory");
  Image_fromarray := Ok;
  np_array := Ok;
  convert := λ b mode, Ok {| bw := bw b; bh := bh b; bmode := mode; samples := samples b |};
  resize_LANCZOS := bitmap_resize;
  filter_UnsharpMask := λ b radius percent threshold, Ok (pointwise (λ v, v + percent) b);
  Color_enhance := λ b f, Ok (pointwise (scale_by f) b);
  Contrast_enhance := λ b f, Ok (pointwise (scale_by f) b);
  Brightness_enhance := λ b f, Ok (pointwise (scale_by f) b);
  fastNlMeansDenoisingColored := λ a h hColor tw sw, Ok (pointwise (λ v, v - v mod (h + 1)) a);
  save := λ _ _ _, Ok tt;
|}.

(** A 2x2 RGB raster and an empty one. *)
Definition checker : bitmap :=
  {| bw := 2; bh := 2; bmode := "RGB"; samples := [10; 200; 200; 10] |}.

Definition empty_raster : bitmap :=
  {| bw := 0; bh := 0; bmode := "RGB"; samples := [] |}.

(** A raster five rows high and no column wide. *)
Definition sliver : bitmap :=
  {| bw := 0; bh := 5; bmode := "RGB"; samples := [] |}.

(** A 100x100 raster of one value. *)
Definition flat100 : bitmap :=
  {| bw := 100; bh := 100; bmode := "RGB"; samples := replicate (Z.to_nat 10000) 7 |}.

End Bitmap.

(** ** Sample data used in the examples below *)

Module Samples.
Import Py Format PromptShape Templates.

(** The first built-in template and its prompt, taken apart. *)
Definition product_photography : Template :=
  default (Template_init "" "" "" None None None None) (head default_templates).

Definition product_segments : list segment :=
  [ Text "professional product photography of ";
    Hole "product";
    Text ", studio lighting, white background, high detail, commercial quality, 8k" ].

Definition product_vars : gmap string string :=
  {[ "product" := "a red bicycle" ]}.

(** A template that is one placeholder, and a value that has braces. *)
Definition echo_template : Template :=
  Template_init "echo" "Echo" "{a}" None None None None.

Definition echo_vars : gmap string string := {[ "a" := "{b}" ]}.

(** A template whose placeholder is a number, and an entry under that
    number. *)
Definition numbered_template : Template :=
  Template_init "numbered" "Numbered" "{0}" None None None None.

Definition numbered_vars : gmap string string := {[ "0" := "poster" ]}.

(** A template whose parameters carry a negative prompt of their own, and
    the store that holds it. *)
Definition shadowed_template : Template :=
  Template_init "shadowed" "Shadowed" "a quiet harbour" (Some "stored with the template")
    None (Some {[ "negative_prompt" := PStr "from the parameters" ]}) None.

Definition shadowed_store : TemplateManager :=
  add_template shadowed_template (mkManager "templates" ∅).

(** Files: a directory where the record of [sketch] would be, and a record
    that can be removed. *)
Definition blocked_files : files := {[ "templates/sketch.json" := Directory ]}.

Definition sketch_files : files :=
  {[ "templates/sketch.json" := File (PDict ∅) true ]}.

(** Variables with an entry named [self]. *)
Definition self_vars : gmap string string :=
  {[ "product" := "a red bicycle"; "self" := "me" ]}.

(** The store with the built-in templates, a backend that returns the
    request it is given, and a caller overriding [guidance_scale]. *)
Definition builtin_store : TemplateManager :=
  _initialize_default_templates (mkManager "templates" ∅).

Definition echo_request (prompt : string) (output_path : option string)
    (params : gmap string pyval) : result (string * gmap string pyval) :=
  Ok (prompt, params).

Definition caller_kwargs : gmap string pyval :=
  {[ "guidance_scale" := PInt 9; "num_images" := PInt 2 ]}.

(** A record with an empty style, a null negative prompt and empty
    parameters and tags. *)
Definition sparse_record : gmap string pyval :=
  <["name" := PStr "sketch"]>
  (<["description" := PStr "Pencil sketch"]>
  (<["prompt" := PStr "pencil sketch of {subject}"]>
  (<["negative_prompt" := PNone]>
  (<["style" := PStr ""]>
  (<["parameters" := PDict ∅]>
  (<["tags" := PList []]> ∅)))))).

Definition sparse_template : Template :=
  Template_init "sketch" "Pencil sketch" "pencil sketch of {subject}" None None None None.

End Samples.

(** * Properties *)

(** ** The result monad and truthiness *)

Module PyFacts.
Import Py.

Lemma bind_Ok_inv {A B} (f : A → result B) (m : result A) (b : B) :
  (m ≫= f) = Ok b → ∃ a, m = Ok a ∧ f a = Ok b.
Proof. destruct m as [a|e]; [eauto | discriminate]. Qed.

Lemma dict_truthy_false {A} (d : gmap string A) : dict_truthy d = false ↔ d = ∅.
Proof.
  unfold dict_truthy. rewrite negb_false_iff, Nat.eqb_eq. apply map_size_empty_iff.
Qed.

(** [(x or d) or d] is [x or d], whatever the default. *)
Lemma py_or_default_idem {A} (is_true : A → bool) (x : option A) (d : A) :
  py_or_default is_true (Some (py_or_default is_true x d)) d = py_or_default is_true x d.
Proof.
  destruct x as [a|]; simpl.
  - destruct (is_true a) eqn:Ha; [by rewrite Ha | by destruct (is_true d)].
  - by destruct (is_true d).
Qed.

(** Inverting a chain of binds that ended in [Ok]. *)
Ltac invert_binds :=
  repeat match goal with
  | H : (_ ≫= _) = Ok _ |- _ =>
      let a := fresh "a" in
      let Ha := fresh "Ha" in
      apply bind_Ok_inv in H as (a & Ha & H)
  end.

End PyFacts.

(** ** Template records *)

Module TemplateFacts.
Import Py Format Templates Samples PyFacts.

Lemma all_str_PStr (l : list string) : all_str (PStr <$> l) = Some l.
Proof.
  induction l as [|s l IH]; [done |].
  rewrite fmap_cons. cbn [all_str as_str]. by rewrite IH.
Qed.

Lemma optional_arg_Some {A} (read : pyval → option A) (v : pyval) (a : A) :
  read v = Some a → optional_arg read v = Ok (Some a).
Proof. unfold optional_arg. by intros ->. Qed.

Lemma to_dict_lookup (t : Template) :
  to_dict t !! "name" = Some (PStr (name t)) ∧
  to_dict t !! "description" = Some (PStr (description t)) ∧
  to_dict t !! "prompt" = Some (PStr (prompt t)) ∧
  to_dict t !! "negative_prompt" = Some (PStr (negative_prompt t)) ∧
  to_dict t !! "style" = Some (PStr (style t)) ∧
  to_dict t !! "parameters" = Some (PDict (parameters t)) ∧
  to_dict t !! "tags" = Some (PList (PStr <$> tags t)).
Proof. unfold to_dict. repeat split; by simplify_map_eq. Qed.

(** Decoding the record of a template gives back its seven fields, passed
    through the constructor once more. *)
Lemma from_dict_to_dict (t : Template) :
  from_dict (to_dict t) =
  Ok (Template_init (name t) (description t) (prompt t)
        (Some (negative_prompt t)) (Some (style t))
        (Some (parameters t)) (Some (tags t))).
Proof.
  destruct (to_dict_lookup t) as (Hn & Hd & Hp & Hnp & Hst & Hps & Htg).
  unfold from_dict, getitem, dict_get.
  rewrite Hn, Hd, Hp, Hnp, Hst, Hps, Htg. simpl.
  rewrite (optional_arg_Some as_str_list _ (tags t)); [done |].
  simpl. apply all_str_PStr.
Qed.

(** C1. For every template built by the constructor, from any name,
    description and prompt and any optional negative prompt, style,
    parameters and tags, [from_dict (to_dict t)] is [t]: all seven fields are
    reproduced. *)
Theorem from_dict_to_dict_roundtrip (n d p : string) (np st : option string)
    (ps : option (gmap string pyval)) (tg : option (list string)) :
  from_dict (to_dict (Template_init n d p np st ps tg)) = Ok (Template_init n d p np st ps tg).
Proof.
  rewrite from_dict_to_dict. f_equal.
  unfold Template_init.
  cbn [name description prompt negative_prompt style parameters tags].
  by rewrite !py_or_default_idem.
Qed.

Lemma from_dict_fields (r : gmap string pyval) (t : Template) :
  from_dict r = Ok t →
  ∃ n d p np st ps tg,
    t = Template_init n d p np st ps tg ∧
    optional_arg as_str (dict_get r "negative_prompt") = Ok np ∧
    optional_arg as_str (dict_get r "style") = Ok st ∧
    optional_arg as_dict (dict_get r "parameters") = Ok ps ∧
    optional_arg as_str_list (dict_get r "tags") = Ok tg.
Proof.
  unfold from_dict. intros Hr. invert_binds.
  injection Hr as <-. eauto 12.
Qed.

(** C10. Decoding replaces falsy optional fields, present or not, by the
    defaults: an empty [style] string becomes ["general"], an empty
    [parameters] mapping or [tags] list becomes the empty default, a null
    [negative_prompt] becomes the empty string; so encoding the decoded
    template does not give back a record with an empty style or a null
    negative prompt. *)
Theorem from_dict_replaces_falsy_fields (r : gmap string pyval) (t : Template) :
  from_dict r = Ok t →
  (r !! "style" = Some (PStr "") → style t = "general") ∧
  (r !! "parameters" = Some (PDict ∅) → parameters t = ∅) ∧
  (r !! "tags" = Some (PList []) → tags t = []) ∧
  (r !! "negative_prompt" = Some PNone → negative_prompt t = "") ∧
  (r !! "style" = Some (PStr "") ∨ r !! "negative_prompt" = Some PNone → to_dict t ≠ r).
Proof.
  intros Hr.
  destruct (from_dict_fields r t Hr) as (n & d & p & np & st & ps & tg & -> & Hnp & Hst & Hps & Htg).
  unfold dict_get in *.
  assert (Hstyle : r !! "style" = Some (PStr "") →
                   style (Template_init n d p np st ps tg) = "general").
  { intros E. rewrite E in Hst. simpl in Hst. by injection Hst as <-. }
  assert (Hneg : r !! "negative_prompt" = Some PNone →
                 negative_prompt (Template_init n d p np st ps tg) = "").
  { intros E. rewrite E in Hnp. simpl in Hnp. by injection Hnp as <-. }
  repeat split; try assumption.
  - intros E. rewrite E in Hps. simpl in Hps. by injection Hps as <-.
  - intros E. rewrite E in Htg. simpl in Htg. by injection Htg as <-.
  - intros [E|E] Heq.
    + pose proof (proj1 (proj2 (proj2 (proj2 (proj2 (to_dict_lookup (Template_init n d p np st ps tg))))))) as L.
      rewrite Heq, E, (Hstyle E) in L. discriminate.
    + pose proof (proj1 (proj2 (proj2 (proj2 (to_dict_lookup (Template_init n d p np st ps tg)))))) as L.
      rewrite Heq, E in L. discriminate.
Qed.

Lemma from_dict_replaces_falsy_fields_witness :
  from_dict sparse_record = Ok sparse_template ∧
  style sparse_template = "general" ∧
  negative_prompt sparse_template = "" ∧
  to_dict sparse_template ≠ sparse_record.
Proof.
  assert (H : from_dict sparse_record = Ok sparse_template) by (vm_compute; reflexivity).
  destruct (from_dict_replaces_falsy_fields sparse_record sparse_template H)
    as (Hst & _ & _ & Hnp & Hne).
  split; [exact H |].
  split; [apply Hst; vm_compute; reflexivity |].
  split; [apply Hnp; vm_compute; reflexivity |].
  apply Hne. left. vm_compute. reflexivity.
Defined.

(** ** The template store *)

(** C8, as the code has it. Adding a template and then looking up its name
    gives exactly that template, whatever the store held before (other
    names are untouched).
    Deleting the name then takes the entry out of the store in every case,
    so a further lookup finds nothing; it answers [true] when no record is
    at the template's path or the record there can be removed, and when
    [os.remove] raises at that path the call raises that error, with the
    files as they were.  Deleting a name that has no template answers
    [false] and leaves store and files as they were. *)
Theorem add_get_delete (self : TemplateManager) (fs : files) (t : Template) :
  let filepath := os_path_join (template_dir self) (name t ++ ".json") in
  get_template (name t) (add_template t self) = Some t ∧
  (∀ n, n ≠ name t → get_template n (add_template t self) = get_template n self) ∧
  (∃ outcome self' fs',
      delete_template (name t) (add_template t self) fs = (outcome, self', fs') ∧
      get_template (name t) self' = None ∧
      (∀ n, n ≠ name t → get_template n self' = get_template n self) ∧
      (fs !! filepath = None → outcome = Ok true ∧ fs' = fs) ∧
      (∀ document, fs !! filepath = Some (File document true) →
         outcome = Ok true ∧ fs' = delete filepath fs) ∧
      (∀ e, is_Some (fs !! filepath) → os_remove filepath fs = Raise e →
         outcome = Raise e ∧ fs' = fs)) ∧
  (∀ n, get_template n self = None → delete_template n self fs = (Ok false, self, fs)).
Proof.
  intros filepath.
  split; [apply lookup_insert_eq |].
  split; [intros n Hn; by apply lookup_insert_ne |].
  split.
  - unfold delete_template, get_template, add_template. cbn [templates template_dir].
    rewrite lookup_insert_eq.
    destruct (decide (is_Some (Some t))) as [_|Hno]; [| by destruct Hno].
    fold filepath.
    assert (Hgone : ∀ m : gmap string Template, delete (name t) (<[name t := t]> m) !! name t = None)
      by (intros m; apply lookup_delete_eq).
    assert (Hrest : ∀ n, n ≠ name t →
              delete (name t) (<[name t := t]> (templates self)) !! n = templates self !! n)
      by (intros n Hn; by rewrite lookup_delete_ne, lookup_insert_ne).
    destruct (decide (is_Some (fs !! filepath))) as [Hsome|Hnone].
    + destruct (os_remove filepath fs) as [fs1|e1] eqn:Hrm;
        eexists _, _, _; (split; [reflexivity |]);
        (split; [apply Hgone |]); (split; [exact Hrest |]).
      * split; [intros Hno; rewrite Hno in Hsome; by destruct Hsome |].
        split; [| intros e _ He; discriminate].
        intros document Hdoc. unfold os_remove in Hrm. rewrite Hdoc in Hrm.
        split; [reflexivity | congruence].
      * split; [intros Hno; rewrite Hno in Hsome; by destruct Hsome |].
        split; [| intros e _ He; split; [congruence | reflexivity]].
        intros document Hdoc. unfold os_remove in Hrm. rewrite Hdoc in Hrm. discriminate.
    + eexists _, _, _. split; [reflexivity |].
      split; [apply Hgone |]. split; [exact Hrest |].
      split; [done |].
      split; [intros document Hdoc; rewrite Hdoc in Hnone; by destruct Hnone |].
      intros e Hsome. by destruct Hnone.
  - intros n Hn. unfold delete_template, get_template in *. rewrite Hn.
    destruct (decide (is_Some None)) as [[? Habs]|_]; [discriminate | reflexivity].
Qed.

Lemma add_get_delete_witness :
  delete_template "unknown" builtin_store sketch_files = (Ok false, builtin_store, sketch_files) ∧
  (∃ self', delete_template "sketch" (add_template sparse_template builtin_store) sketch_files
            = (Ok true, self', ∅) ∧
            get_template "sketch" self' = None).
Proof.
  destruct (add_get_delete builtin_store sketch_files sparse_template)
    as (_ & _ & (outcome & self' & fs' & Hdel & Hget & _ & _ & Hfile & _) & Habsent).
  split.
  - apply Habsent. vm_compute. reflexivity.
  - destruct (Hfile (PDict ∅)) as [-> ->]; [vm_compute; reflexivity |].
    exists self'. split; [| exact Hget].
    etrans; [exact Hdel |]. reflexivity.
Defined.

(** C8, as stated, at a concrete input: with a directory at the path of the
    template's record, deleting a stored name raises instead of answering
    [true]; the entry is gone from the store all the same, and the same
    call with a removable record at that path answers [true]. *)
Lemma delete_template_raises_on_directory :
  let store := add_template sparse_template builtin_store in
  get_template "sketch" store = Some sparse_template ∧
  (∃ self', delete_template "sketch" store blocked_files
            = (Raise (LibraryError "IsADirectoryError"), self', blocked_files) ∧
            get_template "sketch" self' = None) ∧
  fst (fst (delete_template "sketch" store sketch_files)) = Ok true.
Proof.
  split; [vm_compute; reflexivity |].
  split; [| vm_compute; reflexivity].
  eexists. split; [vm_compute; reflexivity |]. vm_compute. reflexivity.
Qed.

End TemplateFacts.

(** ** Prompt formatting *)

Module FormatFacts.
Import Py Format PromptShape Templates Samples PyFacts.

Lemma app_cons_str (x : ascii) (a b : string) :
  (String x a ++ b)%string = String x (a ++ b).
Proof. reflexivity. Qed.

Lemma app_nil_l_str (b : string) : ("" ++ b)%string = b.
Proof. reflexivity. Qed.

Lemma app_assoc_str (a b c : string) : (a ++ (b ++ c))%string = ((a ++ b) ++ c)%string.
Proof.
  induction a as [|x a IH]; [done |].
  by rewrite !app_cons_str, IH.
Qed.

Lemma app_nil_r_str (a : string) : (a ++ "")%string = a.
Proof. induction a as [|x a IH]; [done | by rewrite app_cons_str, IH]. Qed.

Lemma snoc_app (a : string) (c : ascii) (b : string) :
  (snoc a c ++ b)%string = (a ++ String c b)%string.
Proof. unfold snoc. by rewrite <- app_assoc_str. Qed.

(** Literal text without braces is copied. *)
Lemma format_scan_text kwargs (s rest out : string) :
  plain_text s = true →
  format_scan kwargs Literal out (s ++ rest) = format_scan kwargs Literal (out ++ s) rest.
Proof.
  revert out. induction s as [|c s IH]; intros out Hs.
  - by rewrite app_nil_l_str, app_nil_r_str.
  - rewrite app_cons_str. cbn [format_scan]. simpl in Hs. apply andb_prop in Hs as [Hc Hs].
    unfold is_brace in Hc. apply negb_true_iff, orb_false_elim in Hc as [Ho Hcl].
    rewrite Ho, Hcl, IH by done. by rewrite snoc_app.
Qed.

(** The characters of a name are gathered up to the closing brace. *)
Lemma format_scan_name kwargs (key rest acc out : string) :
  name_chars key = true →
  format_scan kwargs (FieldName acc) out (key ++ rest) =
  format_scan kwargs (FieldName (acc ++ key)) out rest.
Proof.
  revert acc. induction key as [|c key IH]; intros acc Hk.
  - by rewrite app_nil_l_str, app_nil_r_str.
  - rewrite app_cons_str. cbn [format_scan]. simpl in Hk. apply andb_prop in Hk as [Hc Hk]. apply andb_prop in Hc as [Hb Hop].
    unfold is_brace in Hb. apply negb_true_iff, orb_false_elim in Hb as [Ho Hcl].
    apply negb_true_iff in Hop.
    rewrite Ho, Hcl, Hop, IH by done. by rewrite snoc_app.
Qed.

Lemma resolve_plain_key kwargs (key : string) :
  plain_key key = true →
  resolve_field kwargs key =
  match kwargs !! key with Some v => Ok v | None => Raise (KeyError key) end.
Proof.
  unfold plain_key. intros Hk.
  apply andb_prop in Hk as [Hk _]. apply andb_prop in Hk as [Hk Hd].
  apply andb_prop in Hk as [Hne Hascii].
  apply negb_true_iff in Hd.
  destruct key as [|c key]; [discriminate |].
  unfold resolve_field. by rewrite Hascii, Hd.
Qed.

(** One placeholder with a plain key. *)
Lemma format_scan_hole kwargs (key rest out : string) :
  plain_key key = true →
  format_scan kwargs Literal out (render_segment (Hole key) ++ rest) =
  match kwargs !! key with
  | Some v => format_scan kwargs Literal (out ++ v) rest
  | None => Raise (KeyError key)
  end.
Proof.
  intros Hk. pose proof (resolve_plain_key kwargs key Hk) as Hres.
  unfold plain_key in Hk. apply andb_prop in Hk as [Hk Hchars].
  apply andb_prop in Hk as [Hk _]. apply andb_prop in Hk as [Hne _].
  destruct key as [|c key]; [discriminate |].
  cbn [render_segment]. rewrite app_cons_str, <- app_assoc_str.
  change (format_scan kwargs Literal out (String ch_open (String c key ++ (String ch_close "" ++ rest))))
    with (format_scan kwargs AfterOpen out (String c key ++ (String ch_close "" ++ rest))).
  pose proof Hchars as Hc. simpl in Hc.
  apply andb_prop in Hc as [Hc Hrest]. apply andb_prop in Hc as [Hb Hop].
  unfold is_brace in Hb. apply negb_true_iff, orb_false_elim in Hb as [Ho Hcl].
  apply negb_true_iff in Hop.
  rewrite app_cons_str. cbn [format_scan]. rewrite Ho, Hcl, Hop.
  rewrite format_scan_name by done.
  rewrite app_cons_str, app_nil_l_str. cbn [format_scan]. rewrite Ascii.eqb_refl.
  change (snoc "" c ++ key)%string with (String c key).
  rewrite Hres. by destruct (kwargs !! String c key).
Qed.

(** The scanner on a rendered prompt is substitution from left to right. *)
Lemma format_scan_render kwargs (segs : list segment) (out : string) :
  well_formed segs = true →
  format_scan kwargs Literal out (render segs) = fill kwargs out segs.
Proof.
  revert out. induction segs as [|seg segs IH]; intros out Hwf; [done |].
  simpl in Hwf. apply andb_prop in Hwf as [Hseg Hwf].
  destruct seg as [s|key]; cbn [render fill].
  - cbn [render_segment]. rewrite format_scan_text by done. by apply IH.
  - rewrite format_scan_hole by done.
    destruct (kwargs !! key); [by apply IH | done].
Qed.

Lemma fill_all_present kwargs (segs : list segment) (out : string) :
  Forall (λ k, is_Some (kwargs !! k)) (holes segs) →
  fill kwargs out segs = Ok (out ++ substitute kwargs segs)%string.
Proof.
  revert out. induction segs as [|[s|key] segs IH]; intros out Hall; simpl.
  - by rewrite app_nil_r_str.
  - rewrite IH by done. by rewrite app_assoc_str.
  - simpl in Hall. apply Forall_cons in Hall as [[v Hv] Hall].
    rewrite Hv. simpl. rewrite IH by done. by rewrite app_assoc_str.
Qed.

Lemma fill_some_missing kwargs (segs : list segment) (out : string) :
  Exists (λ k, kwargs !! k = None) (holes segs) →
  ∃ k, k ∈ holes segs ∧ kwargs !! k = None ∧ fill kwargs out segs = Raise (KeyError k).
Proof.
  revert out. induction segs as [|[s|key] segs IH]; intros out Hex; simpl in *.
  - by apply Exists_nil in Hex.
  - by apply IH.
  - destruct (kwargs !! key) as [v|] eqn:Hv.
    + apply Exists_cons in Hex as [Hex|Hex]; [congruence |].
      destruct (IH (out ++ v)%string Hex) as (k & Hin & Hk & Hfill).
      exists k. split; [set_solver | done].
    + exists key. split; [set_solver | done].
Qed.

Lemma fill_agree kwargs kwargs' (segs : list segment) (out : string) :
  Forall (λ k, kwargs' !! k = kwargs !! k) (holes segs) →
  fill kwargs' out segs = fill kwargs out segs.
Proof.
  revert out. induction segs as [|[s|key] segs IH]; intros out Hag; simpl in *;
    [done | by apply IH |].
  apply Forall_cons in Hag as [-> Hag].
  destruct (kwargs !! key); [by apply IH | done].
Qed.

Lemma plain_text_app (a b : string) :
  plain_text (a ++ b) = (plain_text a && plain_text b)%bool.
Proof.
  induction a as [|c a IH]; [done |].
  rewrite app_cons_str. cbn [plain_text]. by rewrite IH, andb_assoc.
Qed.

Lemma fields_scan_plain_text (s : string) :
  plain_text s = true → fields_scan Literal s = Some [].
Proof.
  induction s as [|c s IH]; simpl; [done |]. intros Hs.
  apply andb_prop in Hs as [Hc Hs].
  unfold is_brace in Hc. apply negb_true_iff, orb_false_elim in Hc as [Ho Hcl].
  rewrite Ho, Hcl. by apply IH.
Qed.

Lemma substitute_plain_text kwargs (segs : list segment) :
  well_formed segs = true →
  Forall (λ k, ∀ v, kwargs !! k = Some v → plain_text v = true) (holes segs) →
  plain_text (substitute kwargs segs) = true.
Proof.
  induction segs as [|[s|key] segs IH]; intros Hwf Hv; simpl in *; [done | |].
  - apply andb_prop in Hwf as [Hs Hwf]. rewrite plain_text_app, Hs. by apply IH.
  - apply andb_prop in Hwf as [_ Hwf]. apply Forall_cons in Hv as [Hk Hv].
    rewrite plain_text_app, IH by done.
    destruct (kwargs !! key) as [v|]; simpl; [by rewrite (Hk v) | done].
Qed.

(** A call with an entry named [self] does not reach the body. *)
Lemma format_prompt_self_entry (t : Template) kwargs :
  is_Some (kwargs !! "self") → format_prompt t kwargs = Raise TypeError.
Proof.
  intros Hself. unfold format_prompt.
  destruct (decide (is_Some (kwargs !! "self"))) as [_|Hno]; [reflexivity | by destruct Hno].
Qed.

Lemma format_prompt_fill (t : Template) kwargs (segs : list segment) :
  prompt t = render segs → well_formed segs = true → kwargs !! "self" = None →
  format_prompt t kwargs =
  match fill kwargs "" segs with
  | Raise (KeyError key) => Raise (MissingTemplateVariable key)
  | r => r
  end.
Proof.
  intros Hp Hwf Hself. unfold format_prompt, str_format.
  destruct (decide (is_Some (kwargs !! "self"))) as [[v Hv]|_]; [congruence |].
  by rewrite Hp, format_scan_render.
Qed.

Lemma format_prompt_all_present (t : Template) kwargs (segs : list segment) :
  prompt t = render segs → well_formed segs = true → kwargs !! "self" = None →
  Forall (λ k, is_Some (kwargs !! k)) (holes segs) →
  format_prompt t kwargs = Ok (substitute kwargs segs).
Proof.
  intros Hp Hwf Hself Hall.
  rewrite (format_prompt_fill t kwargs segs Hp Hwf Hself), fill_all_present by done.
  by rewrite app_nil_l_str.
Qed.

Lemma format_prompt_some_missing (t : Template) kwargs (segs : list segment) :
  prompt t = render segs → well_formed segs = true → kwargs !! "self" = None →
  Exists (λ k, kwargs !! k = None) (holes segs) →
  ∃ k, k ∈ holes segs ∧ kwargs !! k = None ∧
       format_prompt t kwargs = Raise (MissingTemplateVariable k).
Proof.
  intros Hp Hwf Hself Hex.
  destruct (fill_some_missing kwargs segs "" Hex) as (k & Hin & Hk & Hfill).
  exists k. repeat split; [done.. |].
  by rewrite (format_prompt_fill t kwargs segs Hp Hwf Hself), Hfill.
Qed.

(** C2, as the code has it. For a prompt made of brace-free literal text and
    placeholders with plain keys, and variables with no entry named [self]:
    when every placeholder has an entry, [format_prompt] returns the prompt
    with each occurrence replaced by its entry, further entries (none of
    them named [self]) changing nothing, and the result has no brace and no
    placeholder when the entries used have no brace; when some placeholder
    has no entry, it fails with the missing-variable error naming a
    placeholder that has none.  With an entry named [self] the call is a
    [TypeError], whatever the prompt. *)
Theorem format_prompt_fills_placeholders (t : Template) (kwargs : gmap string string)
    (segs : list segment) :
  prompt t = render segs → well_formed segs = true →
  (kwargs !! "self" = None →
   Forall (λ k, is_Some (kwargs !! k)) (holes segs) →
     format_prompt t kwargs = Ok (substitute kwargs segs) ∧
     (∀ extra, extra !! "self" = None →
        format_prompt t (kwargs ∪ extra) = Ok (substitute kwargs segs)) ∧
     (Forall (λ k, ∀ v, kwargs !! k = Some v → plain_text v = true) (holes segs) →
        plain_text (substitute kwargs segs) = true ∧
        placeholders (substitute kwargs segs) = [])) ∧
  (kwargs !! "self" = None →
   Exists (λ k, kwargs !! k = None) (holes segs) →
     ∃ k, k ∈ holes segs ∧ kwargs !! k = None ∧
          format_prompt t kwargs = Raise (MissingTemplateVariable k)) ∧
  (is_Some (kwargs !! "self") → format_prompt t kwargs = Raise TypeError).
Proof.
  intros Hp Hwf. split; [| split].
  - intros Hself Hall. repeat split.
    + by apply format_prompt_all_present.
    + intros extra Hextra.
      assert (Hself' : (kwargs ∪ extra) !! "self" = None)
        by by apply lookup_union_None.
      assert (Hall' : Forall (λ k, (kwargs ∪ extra) !! k = kwargs !! k) (holes segs)).
      { eapply Forall_impl; [exact Hall |]. intros k [v Hv]. simpl.
        rewrite Hv. by apply lookup_union_Some_l. }
      rewrite (format_prompt_fill t _ segs Hp Hwf Hself'), (fill_agree kwargs) by done.
      rewrite fill_all_present by done. by rewrite app_nil_l_str.
    + by apply substitute_plain_text.
    + unfold placeholders.
      by rewrite fields_scan_plain_text by by apply substitute_plain_text.
  - intros Hself Hex. by apply format_prompt_some_missing.
  - apply format_prompt_self_entry.
Qed.

Lemma format_prompt_fills_placeholders_witness :
  format_prompt product_photography product_vars =
    Ok "professional product photography of a red bicycle, studio lighting, white background, high detail, commercial quality, 8k" ∧
  (∃ k, format_prompt product_photography ∅ = Raise (MissingTemplateVariable k)) ∧
  format_prompt product_photography self_vars = Raise TypeError.
Proof.
  assert (Hp : prompt product_photography = render product_segments) by reflexivity.
  assert (Hwf : well_formed product_segments = true) by reflexivity.
  split; [| split].
  - destruct (format_prompt_fills_placeholders product_photography product_vars
                product_segments Hp Hwf) as [Hfull _].
    destruct Hfull as [Heq _].
    + vm_compute. reflexivity.
    + repeat constructor. vm_compute. eauto.
    + rewrite Heq. vm_compute. reflexivity.
  - destruct (format_prompt_fills_placeholders product_photography ∅
                product_segments Hp Hwf) as (_ & Hmiss & _).
    destruct Hmiss as (k & _ & _ & Hk).
    + reflexivity.
    + apply Exists_cons_hd. reflexivity.
    + exists k. exact Hk.
  - apply (format_prompt_fills_placeholders product_photography self_vars
             product_segments Hp Hwf).
    vm_compute. eauto.
Defined.

(** C2, as stated, at concrete inputs. The placeholder [{0}] has an entry
    and [format_prompt] still fails, with [IndexError], because a number
    indexes the positional arguments; without the entry it fails the same
    way, not with the missing-variable error. And where the one placeholder
    [{a}] has the entry [{b}], the returned string holds a placeholder: an
    entry is inserted as it is. And where the one placeholder [{product}]
    has its entry and the variables have a further entry named [self], that
    entry is not ignored: the call is a [TypeError]. *)
Lemma format_prompt_beyond_named_placeholders :
  (placeholders (prompt numbered_template) = ["0"] ∧
   numbered_vars !! "0" = Some "poster" ∧
   format_prompt numbered_template numbered_vars = Raise IndexError ∧
   format_prompt numbered_template ∅ = Raise IndexError ∧
   ¬ (∃ s, format_prompt numbered_template numbered_vars = Ok s) ∧
   ¬ (∃ k, format_prompt numbered_template ∅ = Raise (MissingTemplateVariable k))) ∧
  (Forall (λ k, is_Some (echo_vars !! k)) (placeholders (prompt echo_template)) ∧
   format_prompt echo_template echo_vars = Ok "{b}" ∧
   placeholders "{b}" = ["b"] ∧
   ¬ (∃ s, format_prompt echo_template echo_vars = Ok s ∧ placeholders s = [])) ∧
  (placeholders (prompt product_photography) = ["product"] ∧
   self_vars !! "product" = Some "a red bicycle" ∧
   format_prompt product_photography self_vars = Raise TypeError ∧
   ¬ (∃ s, format_prompt product_photography self_vars = Ok s)).
Proof.
  assert (Hn : format_prompt numbered_template numbered_vars = Raise IndexError)
    by (vm_compute; reflexivity).
  assert (Hn0 : format_prompt numbered_template ∅ = Raise IndexError)
    by (vm_compute; reflexivity).
  assert (He : format_prompt echo_template echo_vars = Ok "{b}") by (vm_compute; reflexivity).
  assert (Hself : format_prompt product_photography self_vars = Raise TypeError)
    by (vm_compute; reflexivity).
  split; [| split].
  - split; [vm_compute; reflexivity |]. split; [vm_compute; reflexivity |].
    split; [exact Hn |]. split; [exact Hn0 |]. split.
    + intros [s Hs]. rewrite Hn in Hs. discriminate.
    + intros [k Hk]. rewrite Hn0 in Hk. discriminate.
  - split; [| split; [exact He | split]].
    + repeat constructor. vm_compute. eauto.
    + vm_compute. reflexivity.
    + intros (s & Hs' & Hnone). rewrite He in Hs'. injection Hs' as <-. discriminate.
  - split; [vm_compute; reflexivity |]. split; [vm_compute; reflexivity |].
    split; [exact Hself |]. intros [s Hs]. rewrite Hself in Hs. discriminate.
Qed.

End FormatFacts.

(** ** Generation from a template *)

Module GeneratorFacts.
Import Py Format PromptShape Templates Generator Samples PyFacts FormatFacts.

Lemma or_empty_dict {A} (m : option (gmap string A)) :
  py_or_default dict_truthy m ∅ = default ∅ m.
Proof.
  destruct m as [d|]; simpl; [| done].
  destruct (dict_truthy d) eqn:Hd; [done |]. symmetry. by apply dict_truthy_false.
Qed.

(** C7, as the code has it. [generate_from_template] fails with the
    not-found error when the store has no template of that name. Otherwise
    the prompt it hands to [generate] is [format_prompt] of the template on
    the variables (none, when the caller gave none): for a prompt of
    brace-free text and plain placeholders that is the prompt with each
    placeholder replaced by its entry, and a placeholder without entry ends
    the call with the missing-variable error before [generate] is reached.
    The parameters handed on keep every entry the caller supplied, have the
    template's own entry under every other key, and under [negative_prompt],
    when the caller supplied none, the entry of the template's parameters if
    there is one and the template's stored negative prompt otherwise. *)
Theorem generate_from_template_request {Images : Type}
    (generate : string → option string → gmap string pyval → result Images)
    (tm : TemplateManager) (template_name : string)
    (template_vars : option (gmap string string)) (output_path : option string)
    (generation_kwargs : gmap string pyval) :
  let vars := default ∅ template_vars in
  let run := generate_from_template generate tm template_name template_vars output_path
               generation_kwargs in
  match get_template template_name tm with
  | None => run = Raise (TemplateNotFound template_name)
  | Some template =>
      ∃ params : gmap string pyval,
        run = (format_prompt template vars ≫= λ prompt, generate prompt output_path params) ∧
        (∀ segs, prompt template = render segs → well_formed segs = true →
           vars !! "self" = None →
           (Forall (λ k, is_Some (vars !! k)) (holes segs) →
              run = generate (substitute vars segs) output_path params) ∧
           (Exists (λ k, vars !! k = None) (holes segs) →
              ∃ k, k ∈ holes segs ∧ vars !! k = None ∧
                   run = Raise (MissingTemplateVariable k))) ∧
        (∀ k v, generation_kwargs !! k = Some v → params !! k = Some v) ∧
        (∀ k, generation_kwargs !! k = None → k ≠ "negative_prompt" →
              params !! k = parameters template !! k) ∧
        (generation_kwargs !! "negative_prompt" = None →
         params !! "negative_prompt" =
           Some (default (PStr (negative_prompt template))
                   (parameters template !! "negative_prompt"))) ∧
        (params !! "negative_prompt" = Some (PStr (negative_prompt template)) →
         generation_kwargs !! "negative_prompt" = None ∨
         generation_kwargs !! "negative_prompt" = Some (PStr (negative_prompt template)))
  end.
Proof.
  intros vars run. subst run. unfold generate_from_template.
  destruct (get_template template_name tm) as [template|]; [| reflexivity].
  rewrite or_empty_dict. fold vars.
  set (merged := generation_kwargs ∪ parameters template).
  assert (Hprompt : ∀ params segs,
            prompt template = render segs → well_formed segs = true →
            vars !! "self" = None →
            (Forall (λ k, is_Some (vars !! k)) (holes segs) →
               (format_prompt template vars ≫= λ prompt, generate prompt output_path params)
               = generate (substitute vars segs) output_path params) ∧
            (Exists (λ k, vars !! k = None) (holes segs) →
               ∃ k, k ∈ holes segs ∧ vars !! k = None ∧
                    (format_prompt template vars ≫= λ prompt, generate prompt output_path params)
                    = Raise (MissingTemplateVariable k))).
  { intros params segs Hp Hwf Hself. split.
    - intros Hall. by rewrite (format_prompt_all_present template vars segs).
    - intros Hex.
      destruct (format_prompt_some_missing template vars segs Hp Hwf Hself Hex)
        as (k & Hin & Hk & Hfmt).
      exists k. by rewrite Hfmt. }
  destruct (decide (is_Some (merged !! "negative_prompt"))) as [Hin|Hout].
  - exists merged. split; [reflexivity |]. split; [apply Hprompt |]. repeat split.
    + intros k v Hk. by apply lookup_union_Some_l.
    + intros k Hk _. by apply lookup_union_r.
    + intros Hk. unfold merged in *. rewrite lookup_union_r in Hin |- * by done.
      destruct Hin as [v ->]. reflexivity.
    + intros Hp. destruct (generation_kwargs !! "negative_prompt") as [v|] eqn:Hk; [| by left].
      right. unfold merged in Hp. by rewrite (lookup_union_Some_l _ _ _ _ Hk) in Hp.
  - exists (<["negative_prompt" := PStr (negative_prompt template)]> merged).
    apply eq_None_not_Some in Hout.
    unfold merged in Hout. apply lookup_union_None in Hout as [Hk Hp].
    split; [reflexivity |]. split; [apply Hprompt |]. repeat split.
    + intros k v Hv. rewrite lookup_insert_ne by congruence.
      by apply lookup_union_Some_l.
    + intros k Hkn Hne. rewrite lookup_insert_ne by done. by apply lookup_union_r.
    + intros _. rewrite lookup_insert_eq, Hp. reflexivity.
    + intros _. by left.
Qed.

Lemma generate_from_template_request_witness :
  (∃ params,
    generate_from_template echo_request builtin_store "product_photography"
      (Some product_vars) None caller_kwargs =
    Ok ("professional product photography of a red bicycle, studio lighting, white background, high detail, commercial quality, 8k",
        params) ∧
    params !! "guidance_scale" = Some (PInt 9) ∧
    params !! "negative_prompt" = Some (PStr "blurry, low quality, amateur, distorted, dark")) ∧
  (∃ k, generate_from_template echo_request builtin_store "product_photography"
          None None caller_kwargs = Raise (MissingTemplateVariable k)).
Proof.
  assert (Hp : prompt product_photography = render product_segments) by reflexivity.
  assert (Hwf : well_formed product_segments = true) by reflexivity.
  split.
  - pose proof (generate_from_template_request echo_request builtin_store
                  "product_photography" (Some product_vars) None caller_kwargs) as H.
    cbv zeta in H.
    change (get_template "product_photography" builtin_store)
      with (Some product_photography) in H.
    destruct H as (params & _ & Hfmt & Hkw & _ & Hneg & _).
    destruct (Hfmt product_segments Hp Hwf) as [Hall _]; [vm_compute; reflexivity |].
    exists params. split; [| split].
    + etrans; [apply Hall; repeat constructor; vm_compute; eauto |].
      unfold echo_request. f_equal.
    + apply Hkw. vm_compute. reflexivity.
    + rewrite Hneg by (vm_compute; reflexivity). vm_compute. reflexivity.
  - pose proof (generate_from_template_request echo_request builtin_store
                  "product_photography" None None caller_kwargs) as H.
    cbv zeta in H.
    change (get_template "product_photography" builtin_store)
      with (Some product_photography) in H.
    destruct H as (params & _ & Hfmt & _).
    destruct (Hfmt product_segments Hp Hwf) as [_ Hmiss]; [reflexivity |].
    destruct Hmiss as (k & _ & _ & Hk); [apply Exists_cons_hd; reflexivity |].
    exists k. exact Hk.
Defined.

(** C7, as stated, at a concrete input. The template [shadowed] is stored
    with a negative prompt, and its parameters have an entry
    [negative_prompt] of their own. The caller supplies no parameters at
    all, and the request that reaches [generate] carries the entry of the
    parameters, not the stored negative prompt. *)
Lemma generate_from_template_keeps_parameters_negative_prompt :
  get_template "shadowed" shadowed_store = Some shadowed_template ∧
  negative_prompt shadowed_template = "stored with the template" ∧
  (∅ : gmap string pyval) !! "negative_prompt" = None ∧
  (∃ params,
     generate_from_template echo_request shadowed_store "shadowed" None None ∅
       = Ok ("a quiet harbour", params) ∧
     params !! "negative_prompt" = Some (PStr "from the parameters") ∧
     params !! "negative_prompt" ≠ Some (PStr (negative_prompt shadowed_template))).
Proof.
  split; [vm_compute; reflexivity |].
  split; [vm_compute; reflexivity |].
  split; [reflexivity |].
  eexists. split; [vm_compute; reflexivity |].
  split; [vm_compute; reflexivity |].
  vm_compute. discriminate.
Qed.

End GeneratorFacts.

(** ** The enhancement pipeline *)

Module EnhancerFacts.
Import Py Config Enhancer Pipeline Bitmap PyFacts.

Section Laws.
Context {Lib : Imaging}.

Lemma bind_ext {A B} (m : result A) (f g : A → result B) :
  (∀ a, f a = g a) → (m ≫= f) = (m ≫= g).
Proof. intros Hfg. destruct m as [a|e]; simpl; [apply Hfg | reflexivity]. Qed.

Lemma run_steps_nil_bind {B} (img : Image) (k : Image → result B) :
  (run_steps [] img ≫= k) = k img.
Proof. reflexivity. Qed.

Lemma run_steps_cons_bind {B} (s : step) (plan : list step) (img : Image)
    (k : Image → result B) :
  (run_steps (s :: plan) img ≫= k) = (run_step s img ≫= λ i, run_steps plan i ≫= k).
Proof. simpl. by destruct (run_step s img). Qed.

Lemma run_steps_app_bind {B} (p1 p2 : list step) (img : Image) (k : Image → result B) :
  (run_steps (p1 ++ p2) img ≫= k) = (run_steps p1 img ≫= λ i, run_steps p2 i ≫= k).
Proof.
  revert img. induction p1 as [|s p1 IH]; intros img; [done |].
  rewrite <- app_comm_cons, !run_steps_cons_bind.
  apply bind_ext. intros i. apply IH.
Qed.

Lemma run_steps_one_bind {B} (s : step) (img : Image) (k : Image → result B) :
  (run_steps [s] img ≫= k) = (run_step s img ≫= k).
Proof. rewrite run_steps_cons_bind. by apply bind_ext. Qed.

(** One stage of [enhance] against one segment of the plan. *)
Ltac stage :=
  try rewrite run_steps_app_bind;
  cbn [option_list option_rect from_option id fmap option_fmap option_map when mbind result_bind];
  first [ rewrite run_steps_one_bind; apply bind_ext; intros ?
        | rewrite run_steps_nil_bind ].

(** C5. [enhance] is the composition of the enabled steps in the order
    upscale, denoise, color, contrast, brightness, sharpen: it runs the plan
    of enabled steps from left to right on the loaded raster, each step on
    the output of the one before, and the plan is always in that order. *)
Theorem enhance_runs_enabled_steps_in_order (config : Config) (image : image_arg)
    (upscale_factor : option Z) (denoise : bool) (denoise_strength : option float)
    (sharpen : bool) (sharpen_amount : option float) (color_enhance : option bool)
    (contrast_enhance : bool) (brightness_adjust : option float)
    (output_path : option string) :
  enhance config image upscale_factor denoise denoise_strength sharpen sharpen_amount
    color_enhance contrast_enhance brightness_adjust output_path =
  (img ← _load_image image;
   img ← run_steps (enabled_steps config upscale_factor denoise denoise_strength sharpen
                      sharpen_amount color_enhance contrast_enhance brightness_adjust) img;
   _ ← persist config img output_path;
   Ok img) ∧
  StronglySorted lt
    (step_rank <$> enabled_steps config upscale_factor denoise denoise_strength sharpen
                     sharpen_amount color_enhance contrast_enhance brightness_adjust).
Proof.
  split.
  - unfold enhance, enabled_steps, upscale_enabled, color_enabled, brightness_enabled.
    apply bind_ext. intros img.
    destruct (py_or int_truthy upscale_factor (enhancement_upscale_factor config))
      as [factor|]; [unfold int_truthy;
                     destruct (negb (factor =? 0) && (1 <? factor))%bool |]; stage.
    all: destruct denoise; stage.
    all: destruct color_enhance as [[]|];
      [| | destruct (enhancement_color_enhance config) as [[]|]]; stage.
    all: destruct contrast_enhance; stage.
    all: destruct brightness_adjust as [b|]; [destruct (float_truthy b) |]; stage.
    all: destruct sharpen; stage; reflexivity.
  - unfold enabled_steps, upscale_enabled, color_enabled, brightness_enabled.
    destruct (py_or int_truthy upscale_factor (enhancement_upscale_factor config))
      as [factor|]; [destruct (negb (factor =? 0) && (1 <? factor))%bool |].
    all: destruct denoise, sharpen, contrast_enhance.
    all: destruct color_enhance as [[]|];
      [| | destruct (enhancement_color_enhance config) as [[]|]].
    all: destruct brightness_adjust as [b|]; [destruct (float_truthy b) |].
    all: simpl; repeat constructor; lia.
Qed.


(** C6. [super_resolution] is two steps, whatever the configuration: a
    resize of the loaded raster to [scale] times its width and height, then
    the unsharp mask at percent [int(0.3 * 150) = 45]. With a library whose
    resize gives the requested size and whose unsharp mask keeps the size,
    any raster it returns is [w * scale] by [h * scale]; and for a raster
    with area and a positive scale it does return one. *)
Theorem super_resolution_upscales_then_sharpens (config : Config) (image : image_arg)
    (scale : Z) (output_path : option string) :
  super_resolution config image scale output_path =
    (img ← _load_image image;
     up ← resize_LANCZOS img (width img * scale, height img * scale);
     out ← filter_UnsharpMask up 2 45 3;
     _ ← persist config out output_path;
     Ok out) ∧
  (∀ config', super_resolution config' image scale None =
              super_resolution config image scale None) ∧
  (resize_gives_size → unsharp_keeps_size →
   ∀ img out, _load_image image = Ok img →
     super_resolution config image scale output_path = Ok out →
     width out = width img * scale ∧ height out = height img * scale) ∧
  (resize_gives_size → resize_accepts_area → unsharp_keeps_size →
   ∀ img, _load_image image = Ok img →
     0 < width img → 0 < height img → 0 < scale →
     ∃ out, super_resolution config image scale None = Ok out ∧
            width out = width img * scale ∧ height out = height img * scale).
Proof.
  assert (Heq : ∀ path, super_resolution config image scale path =
            (img ← _load_image image;
             up ← resize_LANCZOS img (width img * scale, height img * scale);
             out ← filter_UnsharpMask up 2 45 3;
             _ ← persist config out path;
             Ok out)) by reflexivity.
  assert (Hsize : resize_gives_size → unsharp_keeps_size →
            ∀ path img out, _load_image image = Ok img →
              super_resolution config image scale path = Ok out →
              width out = width img * scale ∧ height out = height img * scale).
  { intros Hres Hun path img out Hload Hrun.
    rewrite Heq, Hload in Hrun. cbn [mbind result_bind] in Hrun.
    destruct (resize_LANCZOS img (width img * scale, height img * scale)) as [up|e] eqn:Hup;
      [| discriminate].
    cbn [mbind result_bind] in Hrun.
    apply Hres in Hup as [Hw Hh].
    destruct (Hun up 2 45 3) as (out' & Hf & Hw' & Hh').
    rewrite Hf in Hrun. cbn [mbind result_bind] in Hrun.
    destruct (persist config out' path); [| discriminate].
    injection Hrun as <-. split; congruence. }
  split; [apply Heq |]. split; [reflexivity |].
  split; [intros Hres Hun; apply (Hsize Hres Hun) |].
  intros Hres Hacc Hun img Hload Hw Hh Hs.
  destruct (Hacc img (width img * scale) (height img * scale)) as [up Hup]; [lia.. |].
  destruct (Hun up 2 45 3) as (out & Hf & _).
  assert (Hrun : super_resolution config image scale None = Ok out).
  { rewrite Heq, Hload. cbn [mbind result_bind]. rewrite Hup.
    cbn [mbind result_bind]. rewrite Hf. reflexivity. }
  exists out. split; [exact Hrun |].
  by apply (Hsize Hres Hun None img).
Qed.


(** C4, as the code has it. Asked to upscale a raster without width or
    without height, [enhance] checks nothing itself: the raster goes to the
    library's resize with the target [(width * factor, height * factor)],
    which has a zero in it. If the library refuses, [enhance] fails with the
    library's error and returns no image; if the library returns a raster,
    the pipeline goes on with it. *)
Theorem upscale_leaves_dimensions_to_library (config : Config) (image : image_arg)
    (img : Image) (factor : Z) :
  _load_image image = Ok img →
  width img = 0 ∨ height img = 0 →
  1 < factor →
  (width img * factor = 0 ∨ height img * factor = 0) ∧
  _upscale img factor = resize_LANCZOS img (width img * factor, height img * factor) ∧
  (∀ e, resize_LANCZOS img (width img * factor, height img * factor) = Raise e →
        ∀ denoise denoise_strength sharpen sharpen_amount color_enhance contrast_enhance
          brightness_adjust output_path,
          enhance config image (Some factor) denoise denoise_strength sharpen sharpen_amount
            color_enhance contrast_enhance brightness_adjust output_path = Raise e) ∧
  (∀ up, resize_LANCZOS img (width img * factor, height img * factor) = Ok up →
         ∀ denoise_strength sharpen_amount,
           enhance config image (Some factor) false denoise_strength false sharpen_amount
             (Some false) false None None = Ok up).
Proof.
  intros Hload Hzero Hfactor.
  assert (Hnz : int_truthy factor = true).
  { unfold int_truthy. apply negb_true_iff, Z.eqb_neq. lia. }
  assert (Hgt : (1 <? factor) = true) by (apply Z.ltb_lt; lia).
  split; [destruct Hzero as [Hz|Hz]; rewrite Hz; [left | right]; reflexivity |].
  split; [reflexivity |]. split.
  - intros e He **. unfold enhance. rewrite Hload.
    cbn [mbind result_bind py_or]. rewrite Hnz. cbn iota. rewrite Hnz, Hgt. cbn [andb].
    unfold _upscale. by rewrite He.
  - intros up Hup **. unfold enhance. rewrite Hload.
    cbn [mbind result_bind py_or]. rewrite Hnz. cbn iota. rewrite Hnz, Hgt. cbn [andb].
    unfold _upscale. by rewrite Hup.
Qed.

End Laws.

(** The bitmap backend meets what the size claims assume. *)
Lemma bitmap_resize_gives_size : resize_gives_size.
Proof.
  intros img out w h. simpl. unfold bitmap_resize.
  destruct ((w =? bw img) && (h =? bh img))%bool eqn:Hsame.
  - intros [= <-]. apply andb_prop in Hsame as [Hw Hh].
    apply Z.eqb_eq in Hw, Hh. by subst.
  - destruct ((w <? 1) || (h <? 1))%bool; [discriminate |]. by intros [= <-].
Qed.

Lemma bitmap_resize_accepts_area : resize_accepts_area.
Proof.
  intros img w h Hw Hh. simpl. unfold bitmap_resize.
  destruct ((w =? bw img) && (h =? bh img))%bool; [by eexists |].
  assert (Hok : ((w <? 1) || (h <? 1))%bool = false).
  { apply orb_false_intro; apply Z.ltb_ge; lia. }
  rewrite Hok. by eexists.
Qed.

Lemma bitmap_unsharp_keeps_size : unsharp_keeps_size.
Proof. intros img radius percent threshold. simpl. by eexists. Qed.

Lemma super_resolution_upscales_then_sharpens_witness :
  ∃ out, super_resolution DEFAULT_CONFIG (FromImage flat100) 3 None = Ok out ∧
         width out = 300 ∧ height out = 300.
Proof.
  exact (proj2 (proj2 (proj2
    (super_resolution_upscales_then_sharpens (Lib := bitmap_imaging) DEFAULT_CONFIG
       (@FromImage bitmap_imaging flat100) 3 None)))
    bitmap_resize_gives_size bitmap_resize_accepts_area bitmap_unsharp_keeps_size
    flat100 eq_refl eq_refl eq_refl eq_refl).
Defined.


Lemma upscale_leaves_dimensions_to_library_witness :
  enhance DEFAULT_CONFIG (FromImage sliver) (Some 2) true None true None None true None None =
  Raise (LibraryError "height and width must be > 0").
Proof.
  assert (Hw : width sliver = 0 ∨ height sliver = 0) by (left; reflexivity).
  assert (Hf : 1 < 2) by lia.
  destruct (upscale_leaves_dimensions_to_library (Lib := bitmap_imaging) DEFAULT_CONFIG
              (@FromImage bitmap_imaging sliver) sliver 2 eq_refl Hw Hf) as (_ & _ & Hfail & _).
  apply Hfail. reflexivity.
Defined.

(** C4, as stated, at a concrete input: a raster without width and height,
    an upscale by 2, and [enhance] returns a raster. *)
Lemma upscale_of_empty_raster_returns :
  width empty_raster = 0 ∧
  enhance DEFAULT_CONFIG (FromImage empty_raster) (Some 2) false None false None
    (Some false) false None None = Ok empty_raster ∧
  ¬ (∃ e, enhance DEFAULT_CONFIG (FromImage empty_raster) (Some 2) false None false None
            (Some false) false None None = Raise e).
Proof.
  split; [reflexivity |]. split; [reflexivity |].
  intros [e He]. discriminate He.
Qed.

(** C3, evaluated. With [sharpen=True] and an explicit [sharpen_amount] of
    [0.0], every other step off, [enhance] under the default configuration
    runs the unsharp mask at percent [int(0.5 * 150) = 75]: the zero was
    replaced by the configured amount. With [sharpen=False] it returns the
    loaded raster. On the 2x2 bitmap the two results differ. *)
Theorem enhance_zero_sharpen_amount_is_replaced :
  (∀ (B : Imaging) (image : image_arg) (output_path : option string),
     enhance DEFAULT_CONFIG image (Some 1) false None true (Some fzero) (Some false) false
       None output_path =
       (img ← _load_image image;
        out ← filter_UnsharpMask img 2 75 3;
        _ ← persist DEFAULT_CONFIG out output_path;
        Ok out) ∧
     enhance DEFAULT_CONFIG image (Some 1) false None false (Some fzero) (Some false) false
       None output_path =
       (img ← _load_image image; _ ← persist DEFAULT_CONFIG img output_path; Ok img)) ∧
  enhance DEFAULT_CONFIG (FromImage checker) (Some 1) false None true (Some fzero)
    (Some false) false None None =
    Ok {| bw := 2; bh := 2; bmode := "RGB"; samples := [85; 275; 275; 85] |} ∧
  enhance DEFAULT_CONFIG (FromImage checker) (Some 1) false None false (Some fzero)
    (Some false) false None None = Ok checker.
Proof.
  split; [| split; reflexivity].
  intros B image output_path. split.
  - unfold enhance. apply bind_ext. intros img. reflexivity.
  - unfold enhance. apply bind_ext. intros img. reflexivity.
Qed.

End EnhancerFacts.
